(** * Plan-metadata inference of the Snowpark client

    A shallow embedding of
    [src/snowflake/snowpark/_internal/analyzer/metadata_utils.py]:
    the [PlanMetadata] value with its construction-time assertion,
    [infer_quoted_identifiers_from_expressions] and [infer_metadata], and
    of the two helpers of [tests/integ/test_reduce_describe_query.py],
    [check_attributes_equality] and [has_star_in_projection].

    Python's [None] is [None] of [option]; a raised exception is the left
    summand of the result; every read of a plan's [_metadata] property is
    recorded in a trace, so that statements about which plans an inference
    touches can be made. *)

From Stdlib Require Import Ascii.
From stdpp Require Import base option list strings gmap pretty.

(** ** Expressions and attributes (what metadata_utils.py uses of
    analyzer/expression.py and analyzer/unary_expression.py) *)

Inductive DataType :=
| LongType
| DoubleType
| StringType
| BooleanType
| VariantType.

(** [Attribute]: a resolved column descriptor. *)
Record Attribute := {
  name : string;
  datatype : DataType;
  nullable : bool
}.

#[warnings="-register-all"]
Inductive Expression :=
| Star (expressions : list Expression) (df_alias : option string)
| UnresolvedAlias (child : Expression)
| Alias (child : Expression) (alias_name : string)
| AttributeRef (a : Attribute)
| UnresolvedAttribute (column : string) (df_alias : option string)
| Literal (value : Z)
| FunctionExpression (function_name : string) (arguments : list Expression)
| BinaryExpression (sql_operator : string) (left right : Expression).

(** ** PlanMetadata *)

Module PlanMetadata.
Record t := {
  attributes : option (list Attribute);
  quoted_identifiers : option (list string)
}.
End PlanMetadata.
Import PlanMetadata.
Abbreviation PlanMetadata := PlanMetadata.t.

(** ** Plans (what metadata_utils.py uses of the plan classes) *)

(** The compiled plan.  [_metadata] is the value its property of that name
    yields when read. *)
Record SnowflakePlan := {
  schema_query : option string;
  _metadata : PlanMetadata
}.

(** [source_plan._column_states]: only its [projection] is read. *)
Record ColumnStateDict := {
  projection : list Attribute
}.

(** The plan classes that [infer_metadata] tells apart, with the fields it
    reads; the other fields only keep nodes of one class distinct.  
    [SelectStatement], [SelectSnowflakePlan], [SelectSQL] and
    [SelectableEntity] are the [Selectable]s. *)
#[warnings="-register-all"]
Inductive LogicalPlan :=
| SnowflakePlanNode (plan : SnowflakePlan)
| Filter (condition : Expression) (child : LogicalPlan)
| Sort (order : list Expression) (child : LogicalPlan)
| Limit (limit_expr offset_expr : Expression) (child : LogicalPlan)
| Sample (row_count seed : option Z) (child : LogicalPlan)
| Project (project_list : list Expression) (child : LogicalPlan)
| SelectStatement (from_ : LogicalPlan)
                  (projection_ : option (list Expression))
                  (_attributes : option (list Attribute))
                  (_column_states : option ColumnStateDict)
                  (_snowflake_plan : option SnowflakePlan)
| SelectSnowflakePlan (_snowflake_plan : option SnowflakePlan)
| SelectSQL (sql : string) (_snowflake_plan : option SnowflakePlan)
| SelectableEntity (entity_name : string) (_snowflake_plan : option SnowflakePlan)
| OtherPlan (children : list LogicalPlan).

Record Session := {
  reduce_describe_query_enabled : bool
}.

Record Analyzer := {
  session : Session
}.

(** [df_aliased_col_name_to_real_col_name]: dataframe alias, then referenced
    name, to real column name. *)
Abbreviation AliasMap := (gmap string (gmap string string)).

(** ** Exceptions and the trace of metadata reads *)

Inductive exn := AssertionError.

Inductive event := ReadMetadata (plan : SnowflakePlan).

Definition Eff (A : Type) : Type := list event * (exn + A).

Definition eff_ret {A} (a : A) : Eff A := ([], inr a).

Definition eff_bind {A B} (f : A → Eff B) (c : Eff A) : Eff B :=
  match c with
  | (t, inl e) => (t, inl e)
  | (t, inr a) => let '(t', r) := f a in (t ++ t', r)
  end.

#[global] Instance Eff_ret : MRet Eff := @eff_ret.
#[global] Instance Eff_bind : MBind Eff := @eff_bind.

Definition reads {A} (c : Eff A) : list event := c.1.
Definition outcome {A} (c : Eff A) : exn + A := c.2.

(** [plan._metadata] *)
Definition read_metadata (plan : SnowflakePlan) : Eff PlanMetadata :=
  ([ReadMetadata plan], inr (_metadata plan)).

(** ** PlanMetadata construction (lines 16-28) *)

Definition is_not_None {A} (o : option A) : bool :=
  match o with Some _ => true | None => false end.

(** The dataclass constructor followed by [__post_init__]. *)
Definition PlanMetadata_init (attributes : option (list Attribute))
    (quoted_identifiers : option (list string)) : exn + PlanMetadata :=
  if negb (is_not_None attributes && is_not_None quoted_identifiers)
  then inr {| attributes := attributes; quoted_identifiers := quoted_identifiers |}
  else inl AssertionError.

Definition new_PlanMetadata (attributes : option (list Attribute))
    (quoted_identifiers : option (list string)) : Eff PlanMetadata :=
  ([], PlanMetadata_init attributes quoted_identifiers).

(** The three states of the specification. *)
Definition AttributesKnown (attrs : list Attribute) : PlanMetadata :=
  {| attributes := Some attrs; quoted_identifiers := None |}.
Definition NamesKnown (names : list string) : PlanMetadata :=
  {| attributes := None; quoted_identifiers := Some names |}.
Definition Unknown : PlanMetadata :=
  {| attributes := None; quoted_identifiers := None |}.

(** ** Collaborators that live outside metadata_utils.py

    [parse_column_name] (analyzer/select_statement.py) and [quote_name]
    (_internal/utils.py) are imported by the inference and are not part of
    this file's sources; the inference is stated for any pair of them. *)

Class Collaborators := {
  parse_column_name : Expression → Analyzer → AliasMap → option string;
  quote_name : string → string
}.

(** ** Projection-name inference (lines 31-58) *)

Definition is_Star (e : Expression) : bool :=
  match e with Star _ _ => true | _ => false end.

(** [isinstance(e, UnresolvedAlias) and isinstance(e.child, Star)] *)
Definition is_star_projection (e : Expression) : bool :=
  match e with
  | UnresolvedAlias child => is_Star child
  | _ => false
  end.

(** The two local variables [attributes] and [quoted_identifiers]. *)
Abbreviation slots := (option (list Attribute) * option (list string))%type.

Section Inference.
Context {resolver : Collaborators}.

(** The [for] loop of lines 45-57; [result] is the list built so far. *)
Fixpoint infer_loop (expressions : list Expression) (analyzer : Analyzer)
    (df_aliased_col_name_to_real_col_name : AliasMap)
    (result : list string) : option (list string) :=
  match expressions with
  | [] => Some result
  | e :: expressions' =>
      if is_star_projection e then None
      else
        match parse_column_name e analyzer df_aliased_col_name_to_real_col_name with
        | Some column_name =>
            infer_loop expressions' analyzer df_aliased_col_name_to_real_col_name
                       (result ++ [quote_name column_name])
        | None => None
        end
  end.

Definition infer_quoted_identifiers_from_expressions
    (expressions : list Expression) (analyzer : Analyzer)
    (df_aliased_col_name_to_real_col_name : AliasMap) : option (list string) :=
  infer_loop expressions analyzer df_aliased_col_name_to_real_col_name [].

(** ** Plan-metadata inference (lines 61-140) *)

(** [isinstance(plan, SnowflakePlan)] *)
Definition is_SnowflakePlan (plan : LogicalPlan) : bool :=
  match plan with SnowflakePlanNode _ => true | _ => false end.

(** [isinstance(plan, Selectable)] *)
Definition is_Selectable (plan : LogicalPlan) : bool :=
  match plan with
  | SelectStatement _ _ _ _ _ | SelectSnowflakePlan _ | SelectSQL _ _
  | SelectableEntity _ _ => true
  | _ => false
  end.

(** [plan._snowflake_plan] of a [Selectable] *)
Definition snowflake_plan_slot (plan : LogicalPlan) : option SnowflakePlan :=
  match plan with
  | SelectStatement _ _ _ _ p | SelectSnowflakePlan p | SelectSQL _ p
  | SelectableEntity _ p => p
  | _ => None
  end.

(** Lines 90-92: a Filter, Sort, Limit or Sample node looks at its child. *)
Definition infer_from_child (child : LogicalPlan) : Eff slots :=
  match child with
  | SnowflakePlanNode p =>
      m1 ← read_metadata p;
      m2 ← read_metadata p;
      mret (attributes m1, quoted_identifiers m2)
  | _ => mret (None, None)
  end.

(** Lines 126-133: the [elif] of the pass-through case. *)
Definition copy_quoted_identifiers (p : SnowflakePlan)
    (attributes : option (list Attribute))
    (quoted_identifiers : option (list string)) : Eff slots :=
  if is_not_None quoted_identifiers then mret (attributes, quoted_identifiers)
  else
    m ← read_metadata p;
    if is_not_None (PlanMetadata.quoted_identifiers m) then
      m' ← read_metadata p;
      mret (attributes, PlanMetadata.quoted_identifiers m')
    else mret (attributes, quoted_identifiers).

(** Lines 101-133: a SelectStatement. *)
Definition infer_from_select_statement (from_ : LogicalPlan)
    (projection_ : option (list Expression))
    (_attributes : option (list Attribute))
    (_column_states : option ColumnStateDict) : Eff slots :=
  let attributes :=
    if is_not_None _attributes then _attributes else None in
  let quoted_identifiers :=
    match _column_states with
    | Some cs => Some (map name (projection cs))
    | None => None
    end in
  if is_Selectable from_ && negb (is_not_None projection_)
     && is_not_None (snowflake_plan_slot from_)
  then
    match snowflake_plan_slot from_ with
    | Some p =>
        if is_not_None attributes
        then copy_quoted_identifiers p attributes quoted_identifiers
        else
          m ← read_metadata p;
          if is_not_None (PlanMetadata.attributes m) then
            m' ← read_metadata p;
            mret (PlanMetadata.attributes m', quoted_identifiers)
          else copy_quoted_identifiers p attributes quoted_identifiers
    | None => mret (attributes, quoted_identifiers)
    end
  else mret (attributes, quoted_identifiers).

(** Lines 89-133: the case analysis on the class of [source_plan]. *)
Definition dispatch (source_plan : LogicalPlan) (analyzer : Analyzer)
    (df_aliased_col_name_to_real_col_name : AliasMap) : Eff slots :=
  match source_plan with
  | Filter _ child | Sort _ child | Limit _ _ child | Sample _ _ child =>
      infer_from_child child
  | Project project_list _ =>
      mret (None,
            infer_quoted_identifiers_from_expressions project_list analyzer
              df_aliased_col_name_to_real_col_name)
  | SelectStatement from_ projection_ _attributes _column_states _ =>
      infer_from_select_statement from_ projection_ _attributes _column_states
  | _ => mret (None, None)
  end.

Definition infer_metadata (source_plan : option LogicalPlan)
    (analyzer : Analyzer)
    (df_aliased_col_name_to_real_col_name : AliasMap) : Eff PlanMetadata :=
  '(attributes, quoted_identifiers) ←
    (if reduce_describe_query_enabled (session analyzer) then
       match source_plan with
       | Some source_plan =>
           '(attributes, quoted_identifiers) ←
             dispatch source_plan analyzer df_aliased_col_name_to_real_col_name;
           (* lines 137-138 *)
           if is_not_None attributes then mret (attributes, None)
           else mret (attributes, quoted_identifiers)
       | None => mret (None, None)
       end
     else mret (None, None));
  new_PlanMetadata attributes quoted_identifiers.

End Inference.

(** ** A concrete pair of collaborators *)

Definition dquote : ascii := "034"%char.

Definition upper_ascii (c : ascii) : ascii :=
  let n := nat_of_ascii c in
  if (97 <=? n)%nat && (n <=? 122)%nat then ascii_of_nat (n - 32) else c.

Fixpoint upper (s : string) : string :=
  match s with
  | EmptyString => EmptyString
  | String c s' => String (upper_ascii c) (upper s')
  end.

Definition already_quoted (s : string) : bool :=
  (2 <=? String.length s)%nat
  && bool_decide (String.get 0 s = Some dquote)
  && bool_decide (String.get (String.length s - 1) s = Some dquote).

(** Modelled from the spec: [quote_name] of _internal/utils.py, which is not
    among the sources.  "Case-fold and quote unquoted identifiers exactly as
    the backend would; preserve already-quoted identifiers verbatim." *)
Definition quote_name_spec (s : string) : string :=
  if already_quoted s then s
  else String dquote (upper s +:+ String dquote EmptyString).

(** Modelled from the spec: the name of a column reference, "resolved
    through the alias-resolution context if the reference crosses an
    aliased-dataframe boundary". *)
Definition resolve_column (m : AliasMap) (column : string)
    (df_alias : option string) : string :=
  match df_alias with
  | Some a => default column (m !! a ≫= λ inner, inner !! column)
  | None => column
  end.

(** Modelled from the spec: the "canonical textual rendering" of a function
    call or operator, "operator/function name plus canonical renderings of
    its operands". *)
Fixpoint render (m : AliasMap) (e : Expression) : string :=
  match e with
  | Star _ _ => "*"
  | UnresolvedAlias c => render m c
  | Alias c n => render m c +:+ " AS " +:+ quote_name_spec n
  | AttributeRef a => quote_name_spec (name a)
  | UnresolvedAttribute c a => quote_name_spec (resolve_column m c a)
  | Literal v => pretty v
  | FunctionExpression f args =>
      upper f +:+ "(" +:+ String.concat ", " (map (render m) args) +:+ ")"
  | BinaryExpression op l r =>
      "(" +:+ render m l +:+ " " +:+ op +:+ " " +:+ render m r +:+ ")"
  end.

(** Modelled from the spec: [parse_column_name] of
    analyzer/select_statement.py, which is not among the sources.  "Explicit
    alias name, if the expression carries one; else a name derived from the
    expression's own structure: a column reference contributes its column
    name (resolved through the alias-resolution context if the reference
    crosses an aliased-dataframe boundary), a function call or operator
    contributes a canonical textual rendering of itself, a literal
    contributes no deterministic name."  A wildcard has no name of its own. *)
Fixpoint parse_column_name_spec (e : Expression) (analyzer : Analyzer)
    (m : AliasMap) : option string :=
  match e with
  | Alias _ n => Some n
  | UnresolvedAlias c => parse_column_name_spec c analyzer m
  | AttributeRef a => Some (name a)
  | UnresolvedAttribute c a => Some (resolve_column m c a)
  | FunctionExpression _ _ | BinaryExpression _ _ _ => Some (render m e)
  | Literal _ => None
  | Star _ _ => None
  end.

Definition spec_collaborators : Collaborators := {|
  parse_column_name := parse_column_name_spec;
  quote_name := quote_name_spec
|}.

(** ** Notions used by the statements *)

(** The metadata satisfies the assertion of [__post_init__]. *)
Definition well_formed (m : PlanMetadata) : Prop :=
  attributes m = None ∨ quoted_identifiers m = None.

(** Lines 137-138 on the two local variables. *)
Definition clear_names (s : slots) : slots :=
  if is_not_None s.1 then (s.1, None) else s.

(** A Filter, Sort, Limit or Sample node, with its single child. *)
Definition row_filtering_child (plan : LogicalPlan) : option LogicalPlan :=
  match plan with
  | Filter _ child | Sort _ child | Limit _ _ child | Sample _ _ child =>
      Some child
  | _ => None
  end.


(** [has_star_in_projection] of tests/integ/test_reduce_describe_query.py,
    on the projection list. *)
Definition has_star_in_projection (project_list : list Expression) : bool :=
  existsb is_star_projection project_list.

(** The name the inference derives for one expression: none for a wildcard
    projection, otherwise what [parse_column_name] gives. *)
Definition derived_name {resolver : Collaborators} (analyzer : Analyzer) (m : AliasMap)
    (e : Expression) : option string :=
  if is_star_projection e then None else parse_column_name e analyzer m.

(** The specification's reading of projection-name inference: one quoted
    name per expression, in order, or nothing at all. *)
Definition all_or_nothing_names {resolver : Collaborators} (analyzer : Analyzer)
    (m : AliasMap) (expressions : list Expression) : option (list string) :=
  mapM (λ e, quote_name <$> derived_name analyzer m e) expressions.

(** Lines 114-118: the source whose metadata a SelectStatement may copy. *)
Definition pass_through_source (from_ : LogicalPlan)
    (projection_ : option (list Expression)) : option SnowflakePlan :=
  if is_Selectable from_ && negb (is_not_None projection_)
  then snowflake_plan_slot from_ else None.

(** Some fixed data for examples. *)
Definition enabled_analyzer : Analyzer :=
  {| session := {| reduce_describe_query_enabled := true |} |}.
Definition disabled_analyzer : Analyzer :=
  {| session := {| reduce_describe_query_enabled := false |} |}.
Definition attr_a : Attribute :=
  {| name := String dquote ("A" +:+ String dquote EmptyString);
     datatype := LongType; nullable := true |}.
Definition attr_b : Attribute :=
  {| name := String dquote ("B" +:+ String dquote EmptyString);
     datatype := StringType; nullable := false |}.
Definition col (c : string) : Expression := UnresolvedAttribute c None.
Definition compiled (m : PlanMetadata) : SnowflakePlan :=
  {| schema_query := None; _metadata := m |}.
Definition known_ab : PlanMetadata := AttributesKnown [attr_a; attr_b].
Definition filter_over_known : LogicalPlan :=
  Filter (BinaryExpression ">" (col "a") (Literal 2))
         (SnowflakePlanNode (compiled known_ab)).
Definition filter_over_project : LogicalPlan :=
  Filter (BinaryExpression ">" (col "a") (Literal 2))
         (Project [col "a"] (SnowflakePlanNode (compiled known_ab))).
Definition states_ab : ColumnStateDict := {| projection := [attr_a; attr_b] |}.
Definition select_with_states (from_ : LogicalPlan) : LogicalPlan :=
  SelectStatement from_ None None (Some states_ab) None.
Definition bare_select (from_ : LogicalPlan) : LogicalPlan :=
  SelectStatement from_ None None None None.
Definition known_source : LogicalPlan :=
  SelectSnowflakePlan (Some (compiled known_ab)).
Definition unresolved_source : LogicalPlan :=
  SelectSnowflakePlan None.
Definition names_cd : PlanMetadata :=
  NamesKnown [quote_name_spec "c"; quote_name_spec "d"].
Definition named_source : LogicalPlan :=
  SelectSnowflakePlan (Some (compiled names_cd)).
Definition star : Expression := UnresolvedAlias (Star [] None).

(** ** Further notions: the helpers of the integration test and the
    shapes of the dispatch *)

#[global] Instance DataType_eq_dec : EqDecision DataType.
Proof. solve_decision. Defined.

(** [check_attributes_equality] of tests/integ/test_reduce_describe_query.py
    (lines 161-165): the three assertions, over the zip of the two lists. *)
Fixpoint check_attributes_equality (attrs1 attrs2 : list Attribute)
    : exn + unit :=
  match attrs1, attrs2 with
  | attr1 :: attrs1', attr2 :: attrs2' =>
      if negb (bool_decide (name attr1 = name attr2)) then inl AssertionError
      else if negb (bool_decide (datatype attr1 = datatype attr2))
      then inl AssertionError
      else if negb (bool_decide (nullable attr1 = nullable attr2))
      then inl AssertionError
      else check_attributes_equality attrs1' attrs2'
  | _, _ => inr ()
  end.

(** [has_star_in_projection] of the same file (lines 168-173), on
    [df._plan.source_plan]. *)
Definition has_star_in_projection_plan (source_plan : option LogicalPlan)
    : bool :=
  match source_plan with
  | Some (Project project_list _) => has_star_in_projection project_list
  | _ => false
  end.

(** The compiled plan whose metadata lines 91-92 and 122-132 may read. *)
Definition compiled_below (plan : LogicalPlan) : option SnowflakePlan :=
  match plan with
  | Filter _ child | Sort _ child | Limit _ _ child | Sample _ _ child =>
      match child with SnowflakePlanNode p => Some p | _ => None end
  | SelectStatement from_ projection_ _ _ _ =>
      pass_through_source from_ projection_
  | _ => None
  end.

(** The order of precedence among the four places a SelectStatement can
    take its metadata from. *)
Definition select_statement_metadata (from_ : LogicalPlan)
    (projection_ : option (list Expression))
    (_attributes : option (list Attribute))
    (_column_states : option ColumnStateDict) : PlanMetadata :=
  let source := _metadata <$> pass_through_source from_ projection_ in
  match _attributes with
  | Some attrs => AttributesKnown attrs
  | None =>
    match source ≫= attributes with
    | Some attrs => AttributesKnown attrs
    | None =>
      match _column_states with
      | Some cs => NamesKnown (map name (projection cs))
      | None =>
        match source ≫= quoted_identifiers with
        | Some names => NamesKnown names
        | None => Unknown
        end
      end
    end
  end.

(** Two optional lists, joined when both are there. *)
Definition join_names (names1 names2 : option (list string))
    : option (list string) :=
  match names1, names2 with
  | Some l1, Some l2 => Some (l1 ++ l2)
  | _, _ => None
  end.

(** More fixed data for examples. *)
Definition project_a_c : LogicalPlan :=
  Project [col "a"; Alias (col "b") "c"] (SnowflakePlanNode (compiled known_ab)).
Definition project_a_star : LogicalPlan :=
  Project [col "a"; star] (SnowflakePlanNode (compiled known_ab)).
Definition names_a_c : PlanMetadata :=
  NamesKnown [quote_name_spec "a"; quote_name_spec "c"].
Definition sort_over_names : LogicalPlan :=
  Sort [col "a"] (SnowflakePlanNode (compiled names_a_c)).

(** * Properties *)

Section Properties.
Context {resolver : Collaborators}.
Implicit Types (analyzer : Analyzer) (m : AliasMap) (plan child : LogicalPlan).

(** ** The monad computes *)

Lemma eff_bind_ret {A B} (a : A) (f : A → Eff B) : mret a ≫= f = f a.
Proof.
  unfold mbind, Eff_bind, mret, Eff_ret, eff_bind, eff_ret.
  by destruct (f a).
Qed.

Lemma eff_bind_value {A B} (t : list event) (a : A) (f : A → Eff B) :
  (t, inr a) ≫= f = (t ++ (f a).1, (f a).2).
Proof. unfold mbind, Eff_bind, eff_bind. by destruct (f a). Qed.

Lemma eff_bind_read {B} (p : SnowflakePlan) (f : PlanMetadata → Eff B) :
  read_metadata p ≫= f = (ReadMetadata p :: (f (_metadata p)).1, (f (_metadata p)).2).
Proof. unfold read_metadata. by rewrite eff_bind_value. Qed.

(** ** Construction *)

Lemma PlanMetadata_init_ok a q :
  a = None ∨ q = None →
  PlanMetadata_init a q = inr {| attributes := a; quoted_identifiers := q |}.
Proof. intros [-> | ->]; [done | by destruct a]. Qed.

Lemma PlanMetadata_init_inv a q md :
  PlanMetadata_init a q = inr md →
  attributes md = a ∧ quoted_identifiers md = q ∧ well_formed md.
Proof.
  unfold PlanMetadata_init, well_formed.
  destruct a, q; simpl; intros [=]; subst; simpl; auto.
Qed.

(** ** The shape of [infer_metadata] *)

Lemma clear_names_ok (s : slots) :
  (clear_names s).1 = None ∨ (clear_names s).2 = None.
Proof. destruct s as [[a|] q]; simpl; auto. Qed.

Lemma infer_metadata_disabled source_plan analyzer m :
  reduce_describe_query_enabled (session analyzer) = false →
  infer_metadata source_plan analyzer m = ([], inr Unknown).
Proof. intros E. unfold infer_metadata. by rewrite E. Qed.

Lemma infer_metadata_no_source analyzer m :
  infer_metadata None analyzer m = ([], inr Unknown).
Proof.
  unfold infer_metadata.
  by destruct (reduce_describe_query_enabled (session analyzer)).
Qed.

Lemma infer_metadata_enabled plan analyzer m t s :
  reduce_describe_query_enabled (session analyzer) = true →
  dispatch plan analyzer m = (t, inr s) →
  infer_metadata (Some plan) analyzer m =
    (t, inr {| attributes := (clear_names s).1;
               quoted_identifiers := (clear_names s).2 |}).
Proof.
  intros E D. unfold infer_metadata. rewrite E, D.
  destruct s as [[a|] q]; simpl; rewrite !app_nil_r;
    by rewrite PlanMetadata_init_ok by auto.
Qed.

Lemma copy_quoted_identifiers_total p a q :
  ∃ t s, copy_quoted_identifiers p a q = (t, inr s).
Proof.
  unfold copy_quoted_identifiers.
  destruct (is_not_None q); [by eexists _, _ |].
  rewrite eff_bind_read.
  destruct (is_not_None (quoted_identifiers (_metadata p)));
    [rewrite eff_bind_read |]; by eexists _, _.
Qed.

Lemma infer_from_child_total child :
  ∃ t s, infer_from_child child = (t, inr s).
Proof.
  destruct child; simpl; by eexists _, _.
Qed.

Lemma infer_from_select_statement_total from_ pr a cs :
  ∃ t s, infer_from_select_statement from_ pr a cs = (t, inr s).
Proof.
  unfold infer_from_select_statement.
  destruct (_ && _); [| by eexists _, _].
  destruct (snowflake_plan_slot from_) as [p|]; [| by eexists _, _].
  destruct (is_not_None (if is_not_None a then a else None));
    [apply copy_quoted_identifiers_total |].
  rewrite eff_bind_read.
  destruct (is_not_None (attributes (_metadata p))).
  - rewrite eff_bind_read. by eexists _, _.
  - destruct (copy_quoted_identifiers_total p
      (if is_not_None a then a else None)
      (match cs with Some c => Some (map name (projection c)) | None => None end))
      as (t & s & ->).
    by eexists _, _.
Qed.

Lemma dispatch_total plan analyzer m :
  ∃ t s, dispatch plan analyzer m = (t, inr s).
Proof.
  destruct plan; simpl;
    auto using infer_from_child_total, infer_from_select_statement_total;
    by eexists _, _.
Qed.

Lemma infer_from_select_statement_source from_ pr a cs :
  infer_from_select_statement from_ pr a cs =
    let attributes := if is_not_None a then a else None in
    let quoted_identifiers :=
      match cs with Some c => Some (map name (projection c)) | None => None end in
    match pass_through_source from_ pr with
    | Some p =>
        if is_not_None attributes
        then copy_quoted_identifiers p attributes quoted_identifiers
        else if is_not_None (PlanMetadata.attributes (_metadata p))
        then ([ReadMetadata p; ReadMetadata p],
              inr (PlanMetadata.attributes (_metadata p), quoted_identifiers))
        else (ReadMetadata p ::
                (copy_quoted_identifiers p attributes quoted_identifiers).1,
              (copy_quoted_identifiers p attributes quoted_identifiers).2)
    | None => ([], inr (attributes, quoted_identifiers))
    end.
Proof.
  unfold infer_from_select_statement, pass_through_source.
  destruct (is_Selectable from_), (is_not_None pr); simpl; try done.
  destruct (snowflake_plan_slot from_) as [p|]; simpl; [| done].
  destruct (is_not_None (if is_not_None a then a else None)); [done |].
  destruct (is_not_None (attributes (_metadata p))); [done |].
  by destruct (copy_quoted_identifiers _ _ _).
Qed.

(** ** The loop of projection-name inference *)

Lemma infer_loop_star expressions analyzer m result :
  has_star_in_projection expressions = true →
  infer_loop expressions analyzer m result = None.
Proof.
  unfold has_star_in_projection.
  revert result. induction expressions as [| e es IH]; intros result; simpl.
  - done.
  - destruct (is_star_projection e); [done |]. simpl. intros Hs.
    destruct (parse_column_name e analyzer m); [by apply IH | done].
Qed.

Lemma infer_loop_mapM expressions analyzer m result :
  infer_loop expressions analyzer m result =
    (result ++.) <$> all_or_nothing_names analyzer m expressions.
Proof.
  unfold all_or_nothing_names.
  revert result. induction expressions as [| e es IH]; intros result; simpl.
  - by rewrite app_nil_r.
  - assert (derived_name analyzer m e =
            if is_star_projection e then None
            else parse_column_name e analyzer m) as -> by done.
    destruct (is_star_projection e); [done |].
    destruct (parse_column_name e analyzer m) as [c|]; [| done]. simpl.
    rewrite IH.
    destruct (mapM _ es) as [ns|]; simpl; [| done].
    by rewrite <- app_assoc.
Qed.

Lemma infer_quoted_identifiers_refines expressions analyzer m :
  infer_quoted_identifiers_from_expressions expressions analyzer m =
    all_or_nothing_names analyzer m expressions.
Proof.
  unfold infer_quoted_identifiers_from_expressions.
  rewrite infer_loop_mapM.
  by destruct (all_or_nothing_names analyzer m expressions).
Qed.


(** ** Construction of a PlanMetadata *)

(** C8: building a [PlanMetadata] from two populated slots raises
    [AssertionError]; with at most one slot populated it succeeds, and the
    object built carries exactly the two arguments, so that no invalid pair
    is ever turned into a valid object. *)
Theorem PlanMetadata_init_exclusive
    (a : option (list Attribute)) (q : option (list string)) :
  (is_Some a ∧ is_Some q ↔ PlanMetadata_init a q = inl AssertionError) ∧
  (¬ (is_Some a ∧ is_Some q) ↔
     PlanMetadata_init a q = inr {| attributes := a; quoted_identifiers := q |}) ∧
  (∀ md, PlanMetadata_init a q = inr md →
     attributes md = a ∧ quoted_identifiers md = q).
Proof.
  split_and!.
  - destruct a, q; simpl; split; try done;
      intros [[? ?] [? ?]]; done.
  - destruct a, q; simpl; split; try done;
      try (intros _ [[? ?] [? ?]]; done).
    intros Hn. destruct Hn. by split.
  - intros md Hmd. by destruct (PlanMetadata_init_inv _ _ _ Hmd) as (? & ? & _).
Qed.

(** ** The result of inference *)

(** C1: whatever the source plan, the analyzer and the alias context,
    [infer_metadata] returns a [PlanMetadata] (the assertion never fires) in
    which the two slots are not both populated, and in which populated
    attributes come with no quoted identifiers. *)
Theorem infer_metadata_exclusive source_plan analyzer m :
  ∃ md, outcome (infer_metadata source_plan analyzer m) = inr md ∧
        ¬ (is_Some (attributes md) ∧ is_Some (quoted_identifiers md)) ∧
        (is_Some (attributes md) → quoted_identifiers md = None).
Proof.
  assert (∀ md, well_formed md →
            ¬ (is_Some (attributes md) ∧ is_Some (quoted_identifiers md)) ∧
            (is_Some (attributes md) → quoted_identifiers md = None)) as Hwf.
  { intros md [E | E]; rewrite E; split; try done.
    - intros [[? ?] _]; done.
    - intros [_ [? ?]]; done. }
  destruct (reduce_describe_query_enabled (session analyzer)) eqn:E.
  - destruct source_plan as [plan|].
    + destruct (dispatch_total plan analyzer m) as (t & s & D).
      rewrite (infer_metadata_enabled _ _ _ _ _ E D).
      eexists; split; [done |]. apply Hwf, clear_names_ok.
    + rewrite infer_metadata_no_source.
      eexists; split; [done |]. apply Hwf. by left.
  - rewrite (infer_metadata_disabled _ _ _ E).
    eexists; split; [done |]. apply Hwf. by left.
Qed.

(** C2: with the session flag off, [infer_metadata] returns [Unknown] for
    every plan, and reads no plan's metadata on the way. *)
Theorem disabled_gives_Unknown source_plan analyzer m :
  reduce_describe_query_enabled (session analyzer) = false →
  outcome (infer_metadata source_plan analyzer m) = inr Unknown ∧
  reads (infer_metadata source_plan analyzer m) = [].
Proof. intros E. by rewrite (infer_metadata_disabled _ _ _ E). Qed.

(** C3, as amended: with the session flag on, a Filter, Sort, Limit or
    Sample node whose child is a compiled plan with metadata [M] is given
    exactly [M], slot for slot.  ([M] is any metadata object, so at most one
    of its slots is populated; it need not be resolved.) *)
Theorem identity_propagation plan (p : SnowflakePlan) analyzer m :
  reduce_describe_query_enabled (session analyzer) = true →
  row_filtering_child plan = Some (SnowflakePlanNode p) →
  well_formed (_metadata p) →
  outcome (infer_metadata (Some plan) analyzer m) = inr (_metadata p) ∧
  (∀ md, outcome (infer_metadata (Some plan) analyzer m) = inr md →
     attributes md = attributes (_metadata p) ∧
     quoted_identifiers md = quoted_identifiers (_metadata p)).
Proof.
  intros E Hc Hwf.
  assert (dispatch plan analyzer m =
            ([ReadMetadata p; ReadMetadata p],
             inr (attributes (_metadata p), quoted_identifiers (_metadata p))))
    as D.
  { destruct plan; simpl in Hc; try done; by injection Hc as ->. }
  rewrite (infer_metadata_enabled _ _ _ _ _ E D).
  assert ({| attributes := (clear_names (attributes (_metadata p),
                                         quoted_identifiers (_metadata p))).1;
             quoted_identifiers := (clear_names (attributes (_metadata p),
                                         quoted_identifiers (_metadata p))).2 |}
          = _metadata p) as ->.
  { destruct (_metadata p) as [a q]. unfold well_formed in Hwf. simpl in *.
    destruct Hwf as [-> | ->]; [done | by destruct a]. }
  split; [done |]. by intros md [= ->].
Qed.

(** C10: a Filter, Sort, Limit or Sample node whose child is not a compiled
    plan is given [Unknown], whatever the session flag and whatever the
    child is; no plan's metadata is read, so nothing gets resolved. *)
Theorem uncompiled_child_gives_Unknown plan child analyzer m :
  row_filtering_child plan = Some child →
  is_SnowflakePlan child = false →
  outcome (infer_metadata (Some plan) analyzer m) = inr Unknown ∧
  reads (infer_metadata (Some plan) analyzer m) = [].
Proof.
  intros Hc Hn.
  destruct (reduce_describe_query_enabled (session analyzer)) eqn:E.
  - assert (dispatch plan analyzer m = ([], inr (None, None))) as D.
    { destruct plan; simpl in Hc; try done; injection Hc as ->;
        by destruct child. }
    by rewrite (infer_metadata_enabled _ _ _ _ _ E D).
  - by rewrite (infer_metadata_disabled _ _ _ E).
Qed.

(** ** Composite statements *)

Lemma dispatch_select_statement from_ pr a cs sp analyzer m :
  dispatch (SelectStatement from_ pr a cs sp) analyzer m =
    infer_from_select_statement from_ pr a cs.
Proof. done. Qed.

(** C6, as amended: with the session flag on, a SelectStatement with cached
    column states and no cached attributes is given the names of those
    states, in order, provided it is not a projection-free select over a
    compiled source whose attributes are known. *)
Theorem cached_column_states from_ pr (cs : ColumnStateDict) sp analyzer m :
  reduce_describe_query_enabled (session analyzer) = true →
  (∀ p, pass_through_source from_ pr = Some p →
        attributes (_metadata p) = None) →
  outcome (infer_metadata (Some (SelectStatement from_ pr None (Some cs) sp))
             analyzer m)
    = inr (NamesKnown (map name (projection cs))).
Proof.
  intros E Hsrc.
  destruct (dispatch_total (SelectStatement from_ pr None (Some cs) sp)
              analyzer m) as (t & s & D).
  rewrite (infer_metadata_enabled _ _ _ _ _ E D). unfold outcome. simpl.
  rewrite dispatch_select_statement, infer_from_select_statement_source in D.
  simpl in D.
  destruct (pass_through_source from_ pr) as [p|] eqn:Hp.
  - rewrite (Hsrc p eq_refl) in D. simpl in D. by injection D as <- <-.
  - by injection D as <- <-.
Qed.

(** C7, as amended: with the session flag on, a SelectStatement with no
    projection, no cached attributes and no cached column states, over a
    Selectable that has a compiled plan whose metadata carries attributes,
    is given those attributes and no names; this is the source's metadata
    itself, and the source's names are not looked at. *)
Theorem pass_through_attributes from_ sp (p : SnowflakePlan)
    (attrs : list Attribute) analyzer m :
  reduce_describe_query_enabled (session analyzer) = true →
  is_Selectable from_ = true →
  snowflake_plan_slot from_ = Some p →
  attributes (_metadata p) = Some attrs →
  outcome (infer_metadata (Some (SelectStatement from_ None None None sp))
             analyzer m)
    = inr (AttributesKnown attrs) ∧
  (well_formed (_metadata p) → AttributesKnown attrs = _metadata p).
Proof.
  intros E Hsel Hslot Hattrs. split.
  - destruct (dispatch_total (SelectStatement from_ None None None sp)
                analyzer m) as (t & s & D).
    rewrite (infer_metadata_enabled _ _ _ _ _ E D). unfold outcome. simpl.
    rewrite dispatch_select_statement, infer_from_select_statement_source in D.
    unfold pass_through_source in D. rewrite Hsel, Hslot in D. simpl in D.
    rewrite Hattrs in D. simpl in D. by injection D as <- <-.
  - destruct (_metadata p) as [a q]. unfold well_formed. simpl in *.
    subst a. by intros [? | ->].
Qed.

(** ** Projection lists *)


(** C5: projection-name inference is all or nothing.  It returns a list
    exactly when every expression has a derived name; the list then has one
    entry per expression, entry [i] being the quoted name derived for
    expression [i], so that order and duplicates are those of the input. *)
Theorem all_or_nothing expressions analyzer m :
  (is_Some (infer_quoted_identifiers_from_expressions expressions analyzer m) ↔
     Forall (λ e, is_Some (derived_name analyzer m e)) expressions) ∧
  (∀ names,
     infer_quoted_identifiers_from_expressions expressions analyzer m = Some names ↔
     Forall2 (λ e n, ∃ c, derived_name analyzer m e = Some c ∧ n = quote_name c)
             expressions names) ∧
  (∀ names,
     infer_quoted_identifiers_from_expressions expressions analyzer m = Some names →
     length names = length expressions ∧
     ∀ i e, expressions !! i = Some e →
            ∃ c, derived_name analyzer m e = Some c ∧
                 names !! i = Some (quote_name c)).
Proof.
  rewrite infer_quoted_identifiers_refines. unfold all_or_nothing_names.
  assert (∀ names,
    mapM (λ e, quote_name <$> derived_name analyzer m e) expressions = Some names ↔
    Forall2 (λ e n, ∃ c, derived_name analyzer m e = Some c ∧ n = quote_name c)
            expressions names) as Hiff.
  { intros names. rewrite mapM_Some.
    split; intros HF; (eapply Forall2_impl; [exact HF |]);
      intros e n; simpl; rewrite fmap_Some; naive_solver. }
  split_and!.
  - rewrite mapM_is_Some. apply Forall_iff; intros e. simpl.
    by rewrite fmap_is_Some.
  - done.
  - intros names Hn. apply Hiff in Hn. split.
    + symmetry. by eapply Forall2_length.
    + intros i e Hi.
      destruct (Forall2_lookup_l _ _ _ _ _ Hn Hi) as (n & Hni & c & Hc & ->).
      eauto.
Qed.

(** C9: the empty projection list yields the empty list of names, not
    [None]; hence, with the session flag on, a Project node with an empty
    projection list is given [NamesKnown []]. *)
Theorem empty_projection analyzer m :
  infer_quoted_identifiers_from_expressions [] analyzer m = Some [] ∧
  (reduce_describe_query_enabled (session analyzer) = true →
   ∀ child, outcome (infer_metadata (Some (Project [] child)) analyzer m)
            = inr (NamesKnown [])).
Proof.
  split; [done |]. intros E child.
  by rewrite (infer_metadata_enabled _ _ _ [] (None, Some []) E).
Qed.

End Properties.

(** * Concrete instances

    The statements above at explicit plans, with the modelled collaborators
    standing in for [parse_column_name] and [quote_name]. *)

Abbreviation infer_metadata_on :=
  (infer_metadata (resolver := spec_collaborators)).
Abbreviation infer_names_on :=
  (infer_quoted_identifiers_from_expressions (resolver := spec_collaborators)).

(** Projecting [a] and [b AS c] names the columns by [a] and [c], quoted. *)
Example deterministic_naming :
  infer_names_on [col "a"; Alias (col "b") "c"] enabled_analyzer ∅
  = Some [quote_name_spec "a"; quote_name_spec "c"].
Proof. reflexivity. Qed.

(** Duplicates stay. *)
Example duplicates_kept :
  infer_names_on [col "a"; col "A"; Alias (col "b") "a"] enabled_analyzer ∅
  = Some [quote_name_spec "a"; quote_name_spec "a"; quote_name_spec "a"].
Proof. reflexivity. Qed.

(** A literal alone has no name, so nothing is returned for the list. *)
Example literal_unnamed :
  infer_names_on [col "a"; Literal 1] enabled_analyzer ∅ = None.
Proof. reflexivity. Qed.

(** A star without its alias wrapper is left to [parse_column_name]. *)
Example bare_star :
  infer_names_on [col "a"; Star [] None] enabled_analyzer ∅ = None.
Proof. reflexivity. Qed.

(** The cached column states of a SelectStatement become its names. *)
Example cached_states_scenario :
  outcome (infer_metadata_on (Some (select_with_states unresolved_source))
             enabled_analyzer ∅)
  = inr (NamesKnown [name attr_a; name attr_b]).
Proof. reflexivity. Qed.

(** Witness of C2. *)
Lemma disabled_gives_Unknown_witness :
  reduce_describe_query_enabled (session disabled_analyzer) = false ∧
  outcome (infer_metadata_on (Some filter_over_known) disabled_analyzer ∅)
    = inr Unknown ∧
  reads (infer_metadata_on (Some filter_over_known) disabled_analyzer ∅) = [].
Proof.
  split; [reflexivity |].
  apply (disabled_gives_Unknown (resolver := spec_collaborators)).
  reflexivity.
Defined.

(** C3 as stated fails with the session flag off: the child's metadata is
    known, the Filter node above it is given [Unknown]. *)
Lemma identity_propagation_flag_off :
  row_filtering_child filter_over_known
    = Some (SnowflakePlanNode (compiled known_ab)) ∧
  _metadata (compiled known_ab) = known_ab ∧
  known_ab ≠ Unknown ∧
  outcome (infer_metadata_on (Some filter_over_known) disabled_analyzer ∅)
    ≠ inr known_ab.
Proof. split_and!; [reflexivity | reflexivity | discriminate | discriminate]. Qed.

(** Witness of C3 as amended. *)
Lemma identity_propagation_witness :
  reduce_describe_query_enabled (session enabled_analyzer) = true ∧
  row_filtering_child filter_over_known
    = Some (SnowflakePlanNode (compiled known_ab)) ∧
  well_formed (_metadata (compiled known_ab)) ∧
  outcome (infer_metadata_on (Some filter_over_known) enabled_analyzer ∅)
    = inr known_ab.
Proof.
  split_and!; [reflexivity | reflexivity | right; reflexivity |].
  apply (identity_propagation (resolver := spec_collaborators)
           filter_over_known (compiled known_ab) enabled_analyzer ∅);
    [reflexivity | reflexivity | right; reflexivity].
Defined.

(** Witness of C10: a Filter over a Project whose metadata nobody has asked
    for yet. *)
Lemma uncompiled_child_gives_Unknown_witness :
  row_filtering_child filter_over_project
    = Some (Project [col "a"] (SnowflakePlanNode (compiled known_ab))) ∧
  outcome (infer_metadata_on (Some filter_over_project) enabled_analyzer ∅)
    = inr Unknown ∧
  reads (infer_metadata_on (Some filter_over_project) enabled_analyzer ∅) = [].
Proof.
  split; [reflexivity |].
  apply (uncompiled_child_gives_Unknown (resolver := spec_collaborators)
           filter_over_project
           (Project [col "a"] (SnowflakePlanNode (compiled known_ab))));
    reflexivity.
Defined.

(** C6 as stated fails twice: with the session flag off the node is given
    [Unknown]; with the flag on, a projection-free select over a source with
    known attributes is given those attributes instead of the cached names. *)
Lemma cached_column_states_not_adopted :
  outcome (infer_metadata_on (Some (select_with_states unresolved_source))
             disabled_analyzer ∅)
    ≠ inr (NamesKnown (map name (projection states_ab))) ∧
  outcome (infer_metadata_on (Some (select_with_states known_source))
             enabled_analyzer ∅)
    ≠ inr (NamesKnown (map name (projection states_ab))).
Proof. split; discriminate. Qed.

(** Witness of C6 as amended: the source has names only. *)
Lemma cached_column_states_witness :
  reduce_describe_query_enabled (session enabled_analyzer) = true ∧
  (∀ p, pass_through_source named_source None = Some p →
        attributes (_metadata p) = None) ∧
  outcome (infer_metadata_on (Some (select_with_states named_source))
             enabled_analyzer ∅)
    = inr (NamesKnown (map name (projection states_ab))).
Proof.
  assert (∀ p, pass_through_source named_source None = Some p →
               attributes (_metadata p) = None) as Hsrc.
  { intros p Hp. injection Hp as <-. reflexivity. }
  split_and!; [reflexivity | exact Hsrc |].
  apply (cached_column_states (resolver := spec_collaborators)
           named_source None states_ab None enabled_analyzer ∅);
    [reflexivity | exact Hsrc].
Defined.

(** C7 as stated fails with the session flag off. *)
Lemma pass_through_flag_off :
  is_Selectable known_source = true ∧
  snowflake_plan_slot known_source = Some (compiled known_ab) ∧
  outcome (infer_metadata_on (Some (bare_select known_source))
             disabled_analyzer ∅)
    ≠ inr known_ab.
Proof. split_and!; [reflexivity | reflexivity | discriminate]. Qed.

(** Witness of C7 as amended. *)
Lemma pass_through_attributes_witness :
  reduce_describe_query_enabled (session enabled_analyzer) = true ∧
  is_Selectable known_source = true ∧
  snowflake_plan_slot known_source = Some (compiled known_ab) ∧
  attributes (_metadata (compiled known_ab)) = Some [attr_a; attr_b] ∧
  outcome (infer_metadata_on (Some (bare_select known_source))
             enabled_analyzer ∅)
    = inr (AttributesKnown [attr_a; attr_b]).
Proof.
  split_and!; [reflexivity | reflexivity | reflexivity | reflexivity |].
  apply (pass_through_attributes (resolver := spec_collaborators)
           known_source None (compiled known_ab) [attr_a; attr_b]
           enabled_analyzer ∅); reflexivity.
Defined.



(** * Further properties of the inference *)

Section Dispatch.
Context {resolver : Collaborators}.
Implicit Types (analyzer : Analyzer) (m : AliasMap) (plan child : LogicalPlan).

Lemma copy_quoted_identifiers_outcome p a q :
  outcome (copy_quoted_identifiers p a q) =
    inr (a, match q with Some _ => q | None => quoted_identifiers (_metadata p) end).
Proof.
  unfold copy_quoted_identifiers. destruct q as [q|]; simpl; [done |].
  by destruct (quoted_identifiers (_metadata p)).
Qed.

Ltac all_reads :=
  repeat (apply Forall_cons_2; [by eauto |]); apply Forall_nil_2.

Lemma copy_quoted_identifiers_reads p a q :
  Forall (λ ev, ev = ReadMetadata p) (reads (copy_quoted_identifiers p a q)) ∧
  length (reads (copy_quoted_identifiers p a q)) ≤ 2.
Proof.
  unfold copy_quoted_identifiers. destruct q as [q|]; simpl.
  - split; [all_reads | lia].
  - destruct (quoted_identifiers (_metadata p)); simpl;
      (split; [all_reads | lia]).
Qed.

Lemma dispatch_reads plan analyzer m :
  Forall (λ ev, ∃ p, compiled_below plan = Some p ∧ ev = ReadMetadata p)
         (reads (dispatch plan analyzer m)) ∧
  length (reads (dispatch plan analyzer m)) ≤ 3.
Proof.
  assert (∀ child,
    Forall (λ ev, ∃ p, match child with SnowflakePlanNode p => Some p
                       | _ => None end = Some p ∧ ev = ReadMetadata p)
           (reads (infer_from_child child)) ∧
    length (reads (infer_from_child child)) ≤ 3) as Hchild.
  { intros [p| | | | | | | | | |]; simpl; (split; [all_reads | lia]). }
  destruct plan; simpl; try apply Hchild; try (split; [all_reads | lia]).
  rewrite infer_from_select_statement_source. simpl.
  destruct (pass_through_source plan projection_) as [p|];
    [| split; [all_reads | simpl; lia]].
  set (a := if is_not_None _attributes then _attributes else None).
  set (q := match _column_states with
            | Some c => Some (map name (projection c)) | None => None end).
  destruct (copy_quoted_identifiers_reads p a q) as [Hall Hlen].
  assert (Forall (λ ev, ∃ p0, Some p = Some p0 ∧ ev = ReadMetadata p0)
                 (reads (copy_quoted_identifiers p a q))) as Hall'.
  { eapply Forall_impl; [exact Hall |]. simpl. eauto. }
  destruct (is_not_None a); [split; [done | lia] |].
  destruct (is_not_None (attributes (_metadata p))); simpl.
  - split; [all_reads | lia].
  - split; [apply Forall_cons_2; eauto | unfold reads in Hlen; lia].
Qed.

Lemma infer_metadata_reads plan analyzer m :
  reads (infer_metadata (Some plan) analyzer m) =
    if reduce_describe_query_enabled (session analyzer)
    then reads (dispatch plan analyzer m) else [].
Proof.
  destruct (reduce_describe_query_enabled (session analyzer)) eqn:E.
  - destruct (dispatch_total plan analyzer m) as (t & s & D).
    by rewrite (infer_metadata_enabled _ _ _ _ _ E D), D.
  - by rewrite (infer_metadata_disabled _ _ _ E).
Qed.

Lemma infer_metadata_outcome plan analyzer m s :
  reduce_describe_query_enabled (session analyzer) = true →
  outcome (dispatch plan analyzer m) = inr s →
  outcome (infer_metadata (Some plan) analyzer m) =
    inr {| attributes := (clear_names s).1;
           quoted_identifiers := (clear_names s).2 |}.
Proof.
  intros E D. destruct (dispatch plan analyzer m) as [t r] eqn:Hd.
  unfold outcome in D. simpl in D. subst r.
  by rewrite (infer_metadata_enabled _ _ _ _ _ E Hd).
Qed.

Lemma infer_metadata_outcome_well_formed source_plan analyzer m md :
  outcome (infer_metadata source_plan analyzer m) = inr md → well_formed md.
Proof.
  destruct (reduce_describe_query_enabled (session analyzer)) eqn:E.
  - destruct source_plan as [plan|].
    + destruct (dispatch_total plan analyzer m) as (t & s & D).
      rewrite (infer_metadata_enabled _ _ _ _ _ E D).
      intros [= <-]. apply clear_names_ok.
    + rewrite infer_metadata_no_source. intros [= <-]. by left.
  - rewrite (infer_metadata_disabled _ _ _ E). intros [= <-]. by left.
Qed.

Lemma row_filtering_dispatch plan (p : SnowflakePlan) analyzer m :
  row_filtering_child plan = Some (SnowflakePlanNode p) →
  dispatch plan analyzer m =
    ([ReadMetadata p; ReadMetadata p],
     inr (attributes (_metadata p), quoted_identifiers (_metadata p))).
Proof. intros Hc. destruct plan; simpl in Hc; try done; by injection Hc as ->. Qed.

Lemma select_statement_outcome from_ pr a cs :
  ∃ s, outcome (infer_from_select_statement from_ pr a cs) = inr s ∧
       {| attributes := (clear_names s).1;
          quoted_identifiers := (clear_names s).2 |}
       = select_statement_metadata from_ pr a cs.
Proof.
  rewrite infer_from_select_statement_source.
  unfold select_statement_metadata. simpl.
  destruct (pass_through_source from_ pr) as [p|]; simpl.
  - destruct a as [attrs|]; simpl.
    + rewrite copy_quoted_identifiers_outcome. by eexists.
    + destruct (attributes (_metadata p)) as [attrs|]; simpl.
      * by eexists.
      * pose proof (copy_quoted_identifiers_outcome p None
          (match cs with Some c => Some (map name (projection c)) | None => None end))
          as Hc.
        unfold outcome in Hc. rewrite Hc.
        eexists; split; [done |].
        destruct cs as [c|]; simpl; [done |].
        by destruct (quoted_identifiers (_metadata p)).
  - destruct a as [attrs|]; simpl; [by eexists |].
    eexists; split; [done |]. by destruct cs.
Qed.

Lemma infer_loop_app expressions1 expressions2 analyzer m result :
  infer_loop (expressions1 ++ expressions2) analyzer m result =
    infer_loop expressions1 analyzer m result
      ≫= infer_loop expressions2 analyzer m.
Proof.
  revert result.
  induction expressions1 as [| e es IH]; intros result; simpl; [done |].
  destruct (is_star_projection e); [done |].
  destruct (parse_column_name e analyzer m); [apply IH | done].
Qed.

Lemma project_dispatch_outcome project_list child analyzer m :
  reduce_describe_query_enabled (session analyzer) = true →
  outcome (infer_metadata (Some (Project project_list child)) analyzer m) =
    inr {| attributes := None;
           quoted_identifiers :=
             infer_quoted_identifiers_from_expressions project_list analyzer m |}.
Proof.
  intros E.
  by rewrite (infer_metadata_enabled _ _ _ []
    (None, infer_quoted_identifiers_from_expressions project_list analyzer m) E).
Qed.

Lemma select_statement_result from_ pr a cs sp analyzer m :
  reduce_describe_query_enabled (session analyzer) = true →
  outcome (infer_metadata (Some (SelectStatement from_ pr a cs sp)) analyzer m)
    = inr (select_statement_metadata from_ pr a cs).
Proof.
  intros E.
  destruct (select_statement_outcome from_ pr a cs) as (s & Hs & <-).
  apply infer_metadata_outcome; [done |].
  by rewrite dispatch_select_statement.
Qed.

(** ** Project nodes *)

(** X8: a source plan for which the test helper [has_star_in_projection]
    holds is given [Unknown], for either value of the flag. *)
Theorem star_plan_gives_Unknown source_plan analyzer m :
  has_star_in_projection_plan source_plan = true →
  outcome (infer_metadata source_plan analyzer m) = inr Unknown.
Proof.
  intros Hs.
  destruct (reduce_describe_query_enabled (session analyzer)) eqn:E;
    [| by rewrite (infer_metadata_disabled _ _ _ E)].
  destruct source_plan as [[]|]; simpl in Hs; try done.
  rewrite (infer_metadata_enabled _ _ _ [] (None, None) E); [done |].
  simpl. unfold infer_quoted_identifiers_from_expressions.
  by rewrite infer_loop_star.
Qed.

(** X6: inference over two projection lists put end to end is the two
    inferred lists put end to end, and nothing if either gives nothing. *)
Theorem infer_names_app expressions1 expressions2 analyzer m :
  infer_quoted_identifiers_from_expressions
    (expressions1 ++ expressions2) analyzer m =
  join_names
    (infer_quoted_identifiers_from_expressions expressions1 analyzer m)
    (infer_quoted_identifiers_from_expressions expressions2 analyzer m).
Proof.
  unfold infer_quoted_identifiers_from_expressions.
  rewrite infer_loop_app.
  destruct (infer_loop expressions1 analyzer m []) as [l1|]; simpl; [| done].
  rewrite (infer_loop_mapM expressions2 _ _ l1),
          (infer_loop_mapM expressions2 _ _ []).
  by destruct (all_or_nothing_names analyzer m expressions2).
Qed.

(** ** SelectStatement nodes *)

(** X2: with the flag on, a SelectStatement takes its metadata from the
    first of: its cached attributes; the attributes of the compiled source
    of a projection-free select; its cached column states; the names of
    that source.  With none of them it is given [Unknown]. *)
Theorem select_statement_precedence from_ pr a cs sp analyzer m :
  reduce_describe_query_enabled (session analyzer) = true →
  outcome (infer_metadata (Some (SelectStatement from_ pr a cs sp)) analyzer m)
    = inr (select_statement_metadata from_ pr a cs).
Proof. apply select_statement_result. Qed.

(** ** Every node *)

(** X3: whatever the plan and the flag, an inference reads metadata at most
    three times, and only that of the compiled plan right below the node:
    the child of a Filter, Sort, Limit or Sample, or the compiled plan of
    the source of a projection-free SelectStatement.  Without such a plan
    it reads nothing. *)
Theorem reads_are_shallow plan analyzer m :
  (∀ ev, ev ∈ reads (infer_metadata (Some plan) analyzer m) →
         ∃ p, compiled_below plan = Some p ∧ ev = ReadMetadata p) ∧
  length (reads (infer_metadata (Some plan) analyzer m)) ≤ 3 ∧
  (compiled_below plan = None →
   reads (infer_metadata (Some plan) analyzer m) = []).
Proof.
  rewrite infer_metadata_reads.
  destruct (dispatch_reads plan analyzer m) as [Hall Hlen].
  destruct (reduce_describe_query_enabled (session analyzer)).
  - split_and!; [| done |].
    + intros ev Hev. by apply (proj1 (Forall_forall _ _) Hall).
    + intros Hnone.
      destruct (reads (dispatch plan analyzer m)) as [| ev t]; [done |].
      apply Forall_cons_1 in Hall as [(p & Hp & _) _]. congruence.
  - split_and!; [| simpl; lia | done].
    intros ev Hev. by apply elem_of_nil in Hev.
Qed.

(** X5: what an inference returns can be the metadata of a compiled plan,
    and a Filter, Sort, Limit or Sample node above that plan is then given
    the same metadata again (flag on). *)
Theorem inferred_metadata_propagates source_plan analyzer m md
    plan (p : SnowflakePlan) analyzer' m' :
  outcome (infer_metadata source_plan analyzer m) = inr md →
  _metadata p = md →
  row_filtering_child plan = Some (SnowflakePlanNode p) →
  reduce_describe_query_enabled (session analyzer') = true →
  outcome (infer_metadata (Some plan) analyzer' m') = inr md.
Proof.
  intros Hmd Hp Hc E.
  apply infer_metadata_outcome_well_formed in Hmd.
  rewrite (infer_metadata_enabled _ _ _ _ _ E (row_filtering_dispatch _ _ _ _ Hc)).
  rewrite Hp. unfold outcome. simpl. f_equal.
  destruct md as [a q]. unfold well_formed in Hmd. simpl in *.
  destruct Hmd as [-> | ->]; [done | by destruct a].
Qed.

(** X10: attributes are never made up: when the result has attributes,
    they are the cached attributes of the SelectStatement, or those of the
    compiled plan right below the node. *)
Theorem attributes_are_copied plan analyzer m md (attrs : list Attribute) :
  outcome (infer_metadata (Some plan) analyzer m) = inr md →
  attributes md = Some attrs →
  (∃ from_ pr cs sp, plan = SelectStatement from_ pr (Some attrs) cs sp) ∨
  (∃ p, compiled_below plan = Some p ∧
        attributes (_metadata p) = Some attrs).
Proof.
  intros Hmd Ha.
  destruct (reduce_describe_query_enabled (session analyzer)) eqn:E;
    [| rewrite (infer_metadata_disabled _ _ _ E) in Hmd;
       injection Hmd as <-; done].
  assert (∀ child, row_filtering_child plan = Some child →
            ∃ p, compiled_below plan = Some p ∧
                 attributes (_metadata p) = Some attrs) as Hrow.
  { intros child Hc.
    destruct child as [p| | | | | | | | | |];
      try (rewrite (infer_metadata_enabled _ _ _ [] (None, None) E) in Hmd;
           [injection Hmd as <-; done
           | by destruct plan; simpl in Hc; try done; injection Hc as ->]).
    rewrite (infer_metadata_enabled _ _ _ _ _ E
               (row_filtering_dispatch _ _ _ _ Hc)) in Hmd.
    injection Hmd as <-. simpl in Ha. exists p. split.
    - by destruct plan; simpl in Hc; try done; injection Hc as ->.
    - by destruct (attributes (_metadata p)). }
  destruct plan;
    try (right; by eapply Hrow);
    try (rewrite (infer_metadata_enabled _ _ _ [] (None, None) E) in Hmd;
         [injection Hmd as <-; done | done]).
  - rewrite project_dispatch_outcome in Hmd by done.
    injection Hmd as <-. done.
  - rewrite (select_statement_result _ _ _ _ _ _ _ E) in Hmd.
    injection Hmd as <-. unfold select_statement_metadata in Ha. simpl.
    destruct _attributes as [a|]; simpl in Ha.
    + injection Ha as ->. left. by eexists _, _, _, _.
    + right.
      destruct (pass_through_source plan projection_) as [p|]; simpl in Ha.
      * destruct (attributes (_metadata p)) as [a|] eqn:Hpa; simpl in Ha.
        -- injection Ha as ->. eauto.
        -- destruct _column_states; [done |].
           by destruct (quoted_identifiers (_metadata p)).
      * by destruct _column_states.
Qed.

End Dispatch.

(** ** The attribute check of the integration test *)

Lemma attribute_fields_eq (attr1 attr2 : Attribute) :
  name attr1 = name attr2 → datatype attr1 = datatype attr2 →
  nullable attr1 = nullable attr2 → attr1 = attr2.
Proof. destruct attr1, attr2; simpl; by intros -> -> ->. Qed.

(** X7: [check_attributes_equality] passes exactly when the two lists agree
    up to the length of the shorter one; it does not compare lengths, so it
    passes whenever one of the lists is empty. *)
Theorem check_attributes_equality_prefix (attrs1 attrs2 : list Attribute) :
  (check_attributes_equality attrs1 attrs2 = inr () ↔
   take (length attrs2) attrs1 = take (length attrs1) attrs2) ∧
  (check_attributes_equality attrs1 attrs2 = inl AssertionError ↔
   take (length attrs2) attrs1 ≠ take (length attrs1) attrs2) ∧
  check_attributes_equality attrs1 [] = inr () ∧
  check_attributes_equality [] attrs2 = inr ().
Proof.
  assert (∀ l1 l2 : list Attribute,
    check_attributes_equality l1 l2 = inr () ↔
    take (length l2) l1 = take (length l1) l2) as Hiff.
  { induction l1 as [| a1 l1 IH]; intros [| a2 l2]; simpl; try done.
    repeat case_bool_decide; simpl;
      try (split; [done | intros [= -> _]; done]).
    rewrite IH. split.
    - intros ->. f_equal. by apply attribute_fields_eq.
    - by intros [= _ ?]. }
  split_and!.
  - apply Hiff.
  - rewrite <- Hiff.
    destruct (check_attributes_equality attrs1 attrs2) as [[] | []];
      split; done.
  - by destruct attrs1.
  - done.
Qed.

(** ** Further concrete instances *)

(** Witness of X8. *)
Lemma star_plan_gives_Unknown_witness :
  has_star_in_projection_plan (Some project_a_star) = true ∧
  outcome (infer_metadata_on (Some project_a_star) enabled_analyzer ∅)
    = inr Unknown.
Proof.
  split; [reflexivity |].
  apply (star_plan_gives_Unknown (resolver := spec_collaborators)).
  reflexivity.
Defined.

(** Witness of X2: cached names give way to the attributes of the source. *)
Lemma select_statement_precedence_witness :
  reduce_describe_query_enabled (session enabled_analyzer) = true ∧
  outcome (infer_metadata_on (Some (select_with_states known_source))
             enabled_analyzer ∅)
    = inr known_ab.
Proof.
  split; [reflexivity |].
  apply (select_statement_precedence (resolver := spec_collaborators)
           known_source None None (Some states_ab) None enabled_analyzer ∅).
  reflexivity.
Defined.

(** Witness of X5: the names inferred for a projection, under a Sort. *)
Lemma inferred_metadata_propagates_witness :
  outcome (infer_metadata_on (Some project_a_c) enabled_analyzer ∅)
    = inr names_a_c ∧
  _metadata (compiled names_a_c) = names_a_c ∧
  row_filtering_child sort_over_names
    = Some (SnowflakePlanNode (compiled names_a_c)) ∧
  reduce_describe_query_enabled (session enabled_analyzer) = true ∧
  outcome (infer_metadata_on (Some sort_over_names) enabled_analyzer ∅)
    = inr names_a_c.
Proof.
  split_and!; [reflexivity | reflexivity | reflexivity | reflexivity |].
  apply (inferred_metadata_propagates (resolver := spec_collaborators)
           (Some project_a_c) enabled_analyzer ∅ names_a_c
           sort_over_names (compiled names_a_c) enabled_analyzer ∅);
    reflexivity.
Defined.

(** Witness of X10. *)
Lemma attributes_are_copied_witness :
  outcome (infer_metadata_on (Some filter_over_known) enabled_analyzer ∅)
    = inr known_ab ∧
  attributes known_ab = Some [attr_a; attr_b] ∧
  ((∃ from_ pr cs sp,
      filter_over_known = SelectStatement from_ pr (Some [attr_a; attr_b]) cs sp) ∨
   (∃ p, compiled_below filter_over_known = Some p ∧
         attributes (_metadata p) = Some [attr_a; attr_b])).
Proof.
  split_and!; [reflexivity | reflexivity |].
  apply (attributes_are_copied (resolver := spec_collaborators)
           filter_over_known enabled_analyzer ∅ known_ab [attr_a; attr_b]);
    reflexivity.
Defined.
